(** * auto-proxy: route discovery and the docker event loop (events.go)

    A shallow embedding of [createRoutes] and [watchEvents] and the
    properties of the route table they publish. *)

From Stdlib Require Import Ascii String.
From stdpp Require Import gmap strings list fin_maps.

Local Open Scope string_scope.

(** ** Results of Go code

    A Go function either returns or panics.  The only panics of events.go
    are the slice expressions [container.ID[0:7]] and [event.ID[:12]] that
    build log fields: they are out of range for a shorter string. *)

Inductive Outcome (A : Type) : Type :=
| Returned (a : A)
| Panicked.
Arguments Returned {A} a.
Arguments Panicked {A}.

Global Instance Outcome_ret : MRet Outcome := fun _ a => Returned a.
Global Instance Outcome_bind : MBind Outcome := fun _ _ k m =>
  match m with
  | Returned a => k a
  | Panicked => Panicked
  end.

(** [s[0:n]] on a Go string: the first [n] bytes, a run-time panic when
    [n] exceeds [len(s)]. *)
Definition slice_to (s : string) (n : nat) : Outcome string :=
  if decide (n ≤ String.length s)%nat then Returned (String.substring 0 n s) else Panicked.

(** Go's [error] values.  [watchEvents] compares one of them with
    [docker.ErrListenerAlreadyExists]; the others only carry a message. *)
Inductive error : Type :=
| ErrListenerAlreadyExists
| ErrOther (msg : string).

Global Instance error_eq_dec : EqDecision error.
Proof. solve_decision. Defined.

(** ** The part of go-dockerclient that events.go reads *)

Module docker.

Module PortBinding.
Record t : Type := mk { HostIP : string; HostPort : string }.
End PortBinding.

Module ContainerNetwork.
Record t : Type := mk { IPAddress : string }.
End ContainerNetwork.

Module NetworkSettings.
(** [Ports] is [map[docker.Port][]PortBinding]: a key may be present
    with no binding at all (an exposed port that is not published).
    [Networks] is [map[string]ContainerNetwork]. *)
Record t : Type := mk {
  IPAddress : string;
  Ports : gmap string (list PortBinding.t);
  Networks : gmap string ContainerNetwork.t
}.
End NetworkSettings.

Module SwarmNode.
Record t : Type := mk { Name : string }.
End SwarmNode.

Module Container.
(** [Env] stands for [Config.Env]; [Node] is a pointer, nil for a
    container of the local daemon. *)
Record t : Type := mk {
  ID : string;
  Name : string;
  Env : list string;
  NetworkSettings : NetworkSettings.t;
  Node : option SwarmNode.t
}.
End Container.

Module APIContainers.
Record t : Type := mk { ID : string }.
End APIContainers.

Module APIEvents.
Record t : Type := mk { Status : string; ID : string }.
End APIEvents.

(** What the daemon answers to one client during one enumeration pass. *)
Module Client.
Record t : Type := mk {
  ListContainers : list APIContainers.t + error;
  InspectContainer : string → Container.t + error
}.
End Client.

End docker.

(** ** Routes *)

(** Modelled from the spec: the endpoint descriptor of a route,
    [{ ip, port, container_name }], under the field names events.go
    uses ([route.Upstream.IP], [.Port], [.Container]). *)
Record Endpoint : Type := mkEndpoint {
  IP : string;
  Port : string;
  Container : string
}.

(** Modelled from the spec: a route is a [host_key] and an [upstream]
    endpoint; the declaration of the type is not in events.go. *)
Record RouteBuilder : Type := mkRoute {
  host_key : string;
  Upstream : Endpoint
}.

Global Instance Endpoint_eq_dec : EqDecision Endpoint.
Proof. solve_decision. Defined.
Global Instance RouteBuilder_eq_dec : EqDecision RouteBuilder.
Proof. solve_decision. Defined.

Definition setPort (route : RouteBuilder) (port : string) : RouteBuilder :=
  mkRoute (host_key route)
    (mkEndpoint (IP (Upstream route)) port (Container (Upstream route))).

Definition setIP (route : RouteBuilder) (ip : string) : RouteBuilder :=
  mkRoute (host_key route)
    (mkEndpoint ip (Port (Upstream route)) (Container (Upstream route))).

Definition setContainer (route : RouteBuilder) (name : string) : RouteBuilder :=
  mkRoute (host_key route)
    (mkEndpoint (IP (Upstream route)) (Port (Upstream route)) name).

(** Modelled from the spec: [isValid], "a Route is valid iff host_key is
    non-empty AND upstream.ip is non-empty AND upstream.port is
    non-empty". *)
Definition isValid (route : RouteBuilder) : bool :=
  bool_decide (host_key route ≠ "")
  && bool_decide (IP (Upstream route) ≠ "")
  && bool_decide (Port (Upstream route) ≠ "").

(** A Go map value of type [Routes]: nil, or a table made by [make]. *)
Inductive Routes : Type :=
| NilRoutes
| MkRoutes (table : gmap string RouteBuilder).

(** Modelled from the spec: [Routes.Add], the snapshot is "a mapping from
    host_key to Route", so adding a route stores it under its host key. *)
Definition Add (routes : gmap string RouteBuilder) (route : RouteBuilder)
  : gmap string RouteBuilder :=
  <[host_key route := route]> routes.

(** [strings.Split(s, ",")]: the pieces between commas, one piece (the
    whole string, possibly empty) when there is no comma. *)
Fixpoint splitComma (cur s : string) : list string :=
  match s with
  | EmptyString => [cur]
  | String c rest =>
      if Ascii.eqb c ","%char then cur :: splitComma "" rest
      else splitComma (cur +:+ String c "") rest
  end.

Definition Split (s : string) : list string := splitComma "" s.

(** [fmt.Sprintf("%s/tcp", port)] *)
Definition portDef (port : string) : string := port +:+ "/tcp".

(** ** createRoutes *)

Import docker.

(** One value received from the channel [ch]: an inspected container,
    together with the order in which [range] visits its [Networks] when
    the loop body gets there.  Go fixes neither the order in which the
    inspecting goroutines send nor the iteration order of a map, so both
    are inputs of the model. *)
Definition Arrival : Type := Container.t * list (string * ContainerNetwork.t).

Definition isLocal (container : Container.t) : bool :=
  match Container.Node container with
  | None => true
  | Some _ => false
  end.

Section Enumerator.

(** [NewRouteBuilder()] followed by [ParseAll(container.Config.Env...)]:
    the route builder, whose code is not part of events.go. *)
Variable build : list string → RouteBuilder.

(** [*ports]: the flag with the comma separated candidate ports. *)
Variable ports : string.

(** Lines 53-59: the first candidate that is a key of [Ports]. *)
Fixpoint findPort (candidates : list string)
    (declared : gmap string (list PortBinding.t)) : option string :=
  match candidates with
  | [] => None
  | port :: rest =>
      match declared !! portDef port with
      | Some _ => Some port
      | None => findPort rest declared
      end
  end.

(** Lines 52-60. *)
Definition resolvePort (container : Container.t) (route : RouteBuilder)
  : RouteBuilder :=
  if decide (Port (Upstream route) = "") then
    match findPort (Split ports)
            (NetworkSettings.Ports (Container.NetworkSettings container)) with
    | Some port => setPort route port
    | None => route
    end
  else route.

(** Lines 76-82. *)
Fixpoint useBindings (bindings : list PortBinding.t) (route : RouteBuilder)
  : RouteBuilder :=
  match bindings with
  | [] => route
  | binding :: rest =>
      if decide (PortBinding.HostIP binding ≠ "0.0.0.0") then
        setPort (setIP route (PortBinding.HostIP binding))
                (PortBinding.HostPort binding)
      else useBindings rest route
  end.

(** Lines 92-97, over the networks in the order [range] yields them. *)
Fixpoint useNetworks (nets : list (string * ContainerNetwork.t))
    (route : RouteBuilder) : RouteBuilder :=
  match nets with
  | [] => route
  | (_, network) :: rest =>
      if decide (ContainerNetwork.IPAddress network ≠ "") then
        setIP route (ContainerNetwork.IPAddress network)
      else useNetworks rest route
  end.

(** Lines 72-73: a missing key yields the nil slice. *)
Definition bindingsOf (container : Container.t) (route : RouteBuilder)
  : list PortBinding.t :=
  default []
    (NetworkSettings.Ports (Container.NetworkSettings container)
       !! portDef (Port (Upstream route))).

(** Lines 84-88. *)
Definition useBridge (container : Container.t) (route : RouteBuilder)
  : RouteBuilder :=
  if isLocal container && bool_decide (IP (Upstream route) = "") then
    setIP route (NetworkSettings.IPAddress (Container.NetworkSettings container))
  else route.

(** Lines 90-98. *)
Definition useOtherNetwork (nets : list (string * ContainerNetwork.t))
    (container : Container.t) (route : RouteBuilder) : RouteBuilder :=
  if isLocal container && bool_decide (IP (Upstream route) = "") then
    useNetworks nets route
  else route.

(** Lines 71-98. *)
Definition resolveAddress (nets : list (string * ContainerNetwork.t))
    (container : Container.t) (route : RouteBuilder) : RouteBuilder :=
  useOtherNetwork nets container
    (useBridge container
       (useBindings (bindingsOf container route) route)).

(** The fields of the three debug lines: [container.ID[0:7]] is sliced
    before logrus is called. *)
Definition debugFields (container : Container.t) : Outcome unit :=
  _ ← slice_to (Container.ID container) 7; mret tt.

(** Lines 48-112, the body of the receiving loop for one container:
    [None] stands for [continue], [Some route] for [routes.Add(route)]. *)
Definition loopBody (arrival : Arrival) : Outcome (option RouteBuilder) :=
  let '(container, nets) := arrival in
  let route := resolvePort container (build (Container.Env container)) in
  if decide (Port (Upstream route) = "") then
    _ ← debugFields container; mret None
  else
    let route := setContainer route (Container.Name container) in
    let route := resolveAddress nets container route in
    if decide (IP (Upstream route) = "") then
      _ ← debugFields container; mret None
    else if negb (isValid route) then mret None
    else _ ← debugFields container; mret (Some route).

(** Lines 47-113. *)
Fixpoint receiveAll (arrivals : list Arrival)
    (routes : gmap string RouteBuilder) : Outcome (gmap string RouteBuilder) :=
  match arrivals with
  | [] => mret routes
  | arrival :: rest =>
      r ← loopBody arrival;
      receiveAll rest
        (match r with
         | Some route => Add routes route
         | None => routes
         end)
  end.

(** Lines 27-38: what the inspecting goroutines send on [ch], in the
    order of the listing; a failed inspection sends nothing. *)
Definition inspected (client : Client.t)
    (containers : list APIContainers.t) : list Container.t :=
  omap (fun container =>
          match Client.InspectContainer client (APIContainers.ID container) with
          | inl c => Some c
          | inr _ => None
          end) containers.

(** [createRoutes(client)], given what arrives on the channel. *)
Definition createRoutes (client : Client.t) (arrivals : list Arrival)
  : Outcome (Routes * option error) :=
  match Client.ListContainers client with
  | inr err => mret (NilRoutes, Some err)
  | inl _ =>
      table ← receiveAll arrivals ∅;
      mret (MkRoutes table, None)
  end.

(** The arrivals a pass can see: some interleaving of the successful
    inspections, each with some iteration order of its networks. *)
Definition scheduled (client : Client.t) (arrivals : list Arrival) : Prop :=
  match Client.ListContainers client with
  | inl containers =>
      arrivals.*1 ≡ₚ inspected client containers
      ∧ Forall (fun a : Arrival =>
                  a.2 ≡ₚ map_to_list
                           (NetworkSettings.Networks (Container.NetworkSettings a.1)))
           arrivals
  | inr _ => True
  end.

(** The schedule that follows the listing and [map_to_list]. *)
Definition inOrder (client : Client.t) : list Arrival :=
  match Client.ListContainers client with
  | inl containers =>
      (fun c => (c, map_to_list
                      (NetworkSettings.Networks (Container.NetworkSettings c))))
        <$> inspected client containers
  | inr _ => []
  end.

(** The invariant of the receiving loop: every entry is a valid route
    stored under its own host key. *)
Definition wellKeyed (table : gmap string RouteBuilder) : Prop :=
  ∀ key route, table !! key = Some route →
    key = host_key route ∧ isValid route = true.


End Enumerator.

Arguments loopBody : simpl never.
Arguments createRoutes : simpl never.

(** ** watchEvents *)

(** [time.Duration] counts nanoseconds. *)
Definition Second : Z := 1000000000.
Definition PingInterval : Z := 10 * Second.
Definition ReconnectTime : Z := 10 * Second.

Inductive Level : Type := ErrorLevel | InfoLevel | DebugLevel.

(** What the loop does to the world, in program order. *)
Inductive Action : Type :=
| ActPing                        (* client.Ping() *)
| ActNewClient                   (* docker.NewClientFromEnv() *)
| ActCreateRoutes                (* createRoutes(client) *)
| ActUpdate (routes : Routes)    (* updateFunc(routes) *)
| ActAddEventListener            (* client.AddEventListener(eventChan) *)
| ActRemoveEventListener         (* client.RemoveEventListener(eventChan) *)
| ActSleep (d : Z)               (* time.Sleep(d) *)
| ActTimeout (d : Z)             (* <-time.After(d) was selected *)
| ActLog (level : Level) (msg : string).

(** A computation of the loop: the actions done so far, and the value
    returned unless a panic stopped it. *)
Definition Prog (A : Type) : Type := list Action * Outcome A.

Definition ret {A} (a : A) : Prog A := ([], Returned a).

Definition bind {A B} (m : Prog A) (k : A → Prog B) : Prog B :=
  match m with
  | (acts, Returned a) => let '(more, b) := k a in ((acts ++ more)%list, b)
  | (acts, Panicked) => (acts, Panicked)
  end.

Definition act (a : Action) : Prog unit := ([a], Returned tt).

Definition lift {A} (o : Outcome A) : Prog A := ([], o).

Declare Scope prog_scope.
Delimit Scope prog_scope with prog.
Notation "x <- m ;; k" := (bind m (fun x => k))
  (at level 100, m at next level, right associativity) : prog_scope.
Notation "m ;; k" := (bind m (fun _ => k))
  (at level 100, right associativity) : prog_scope.

(** A [*docker.Client]: which connection it is. *)
Definition ClientRef : Type := nat.

(** What [select] at line 173 receives. *)
Inductive Selected : Type :=
| Event (event : option APIEvents.t)   (* <-eventChan, nil included *)
| TimedOut.                            (* <-time.After(PingInterval) *)

(** The answers of the outside world during one iteration of a loop; an
    iteration asks each question at most once. *)
Record World : Type := mkWorld {
  ping : option error;
  newClient : ClientRef + error;
  daemon : Client.t;
  arrivals : list Arrival;
  addEventListener : option error;
  selected : Selected
}.

(** The place of control between two iterations: the head of the outer
    loop (line 123), or the head of the inner loop (line 146) with the
    value of [watching]. *)
Inductive Loc : Type :=
| Outer
| Inner (watching : bool).

Definition isLifecycle (status : string) : bool :=
  bool_decide (status = "start")
  || bool_decide (status = "stop")
  || bool_decide (status = "die").

Section Loop.

Variable build : list string → RouteBuilder.
Variable ports : string.

(** The consumer of the snapshots: its state, and the callback
    [updateFunc] acting on it, nil when none is registered. *)
Variable Consumer : Type.
Variable updateFunc : option (Routes → Consumer → Consumer).

Record State : Type := mkState {
  client : option ClientRef;
  routes : Routes;
  consumer : Consumer;
  loc : Loc
}.

Definition initial (c0 : Consumer) : State := mkState None NilRoutes c0 Outer.

Definition goto (l : Loc) (st : State) : State :=
  mkState (client st) (routes st) (consumer st) l.

Definition setClient (c : option ClientRef) (st : State) : State :=
  mkState c (routes st) (consumer st) (loc st).

Definition setRoutes (r : Routes) (st : State) : State :=
  mkState (client st) r (consumer st) (loc st).

(** Lines 133-139 and 186-192. *)
Definition enumerate (w : World) (st : State) : Prog State :=
  (act ActCreateRoutes;;
   res <- lift (createRoutes build ports (daemon w) (arrivals w));;
   let st := setRoutes res.1 st in
   (match res.2 with
    | Some _ => act (ActLog ErrorLevel "Error enumerating routes:")
    | None => ret tt
    end);;
   match res.2, updateFunc with
   | None, Some f =>
       act (ActUpdate res.1);;
       ret (mkState (client st) (routes st) (f res.1 (consumer st)) (loc st))
   | _, _ => ret st
   end)%prog.

(** The four ways lines 133-139 and 186-192 can go. *)
Inductive Enumerated (w : World) (st : State) : Prog State → Prop :=
| enum_panics :
    createRoutes build ports (daemon w) (arrivals w) = Panicked →
    Enumerated w st ([ActCreateRoutes], Panicked)
| enum_fails r err :
    createRoutes build ports (daemon w) (arrivals w) = Returned (r, Some err) →
    Enumerated w st
      ([ActCreateRoutes; ActLog ErrorLevel "Error enumerating routes:"],
       Returned (setRoutes r st))
| enum_silent r :
    createRoutes build ports (daemon w) (arrivals w) = Returned (r, None) →
    updateFunc = None →
    Enumerated w st ([ActCreateRoutes], Returned (setRoutes r st))
| enum_publishes r f :
    createRoutes build ports (daemon w) (arrivals w) = Returned (r, None) →
    updateFunc = Some f →
    Enumerated w st
      ([ActCreateRoutes; ActUpdate r],
       Returned (mkState (client st) r (f r (consumer st)) (loc st))).

(** Lines 124-145: one iteration of the outer loop up to the inner one. *)
Definition outerStep (w : World) (st : State) : Prog State :=
  (reconnect <- match client st with
                | None => ret true
                | Some _ => act ActPing;; ret (bool_decide (ping w = None))
                end;;
   if reconnect : bool then
     act ActNewClient;;
     match newClient w with
     | inr _ =>
         act (ActLog ErrorLevel "Unable to connect to docker daemon:");;
         act (ActSleep ReconnectTime);;
         ret (goto Outer (setClient None st))
     | inl c =>
         act (ActLog DebugLevel "Connected to docker daemon...");;
         st <- enumerate w (setClient (Some c) st);;
         ret (goto (Inner false) st)
     end
   else ret (goto (Inner false) st))%prog.

(** Lines 176-180. *)
Definition unlisten (watching : bool) (st : State) : Prog State :=
  (if watching then
     act ActRemoveEventListener;;
     ret (goto (Inner false) (setClient None st))
   else ret (goto (Inner watching) st))%prog.

(** Lines 173-196, entered with [watching] true. *)
Definition selectStep (w : World) (st : State) : Prog State :=
  match selected w with
  | Event None => unlisten true st
  | Event (Some event) =>
      if isLifecycle (APIEvents.Status event) then
        (_ <- lift (slice_to (APIEvents.ID event) 12);;
         act (ActLog DebugLevel "Received event");;
         enumerate w (goto (Inner true) st))%prog
      else ret (goto (Inner true) st)
  | TimedOut => (act (ActTimeout PingInterval);; ret (goto (Inner true) st))%prog
  end.

(** Lines 147-196: one iteration of the inner loop. *)
Definition innerStep (watching : bool) (w : World) (st : State) : Prog State :=
  match client st with
  | None => ret (goto Outer st)
  | Some _ =>
      (act ActPing;;
       match ping w with
       | Some _ =>
           act (ActLog ErrorLevel "Unable to ping docker daemon:");;
           st <- (if watching then
                    act ActRemoveEventListener;; ret (setClient None st)
                  else ret st);;
           act (ActSleep ReconnectTime);;
           ret (goto Outer st)
       | None =>
           if watching then selectStep w st
           else
             act ActAddEventListener;;
             match addEventListener w with
             | Some err =>
                 if decide (err ≠ ErrListenerAlreadyExists) then
                   act (ActLog ErrorLevel "Error registering docker event listener:");;
                   act (ActSleep ReconnectTime);;
                   ret (goto (Inner false) st)
                 else
                   act (ActLog InfoLevel "Watching docker events...");;
                   selectStep w st
             | None =>
                 act (ActLog InfoLevel "Watching docker events...");;
                 selectStep w st
             end
       end)%prog
  end.

Definition step (w : World) (st : State) : Prog State :=
  match loc st with
  | Outer => outerStep w st
  | Inner watching => innerStep watching w st
  end.

(** The loop run against the answers of successive iterations. *)
Fixpoint run (ws : list World) (st : State) : Prog State :=
  match ws with
  | [] => ret st
  | w :: rest => (st' <- step w st;; run rest st')%prog
  end.

End Loop.

Arguments client {Consumer} _.
Arguments routes {Consumer} _.
Arguments consumer {Consumer} _.
Arguments loc {Consumer} _.
Arguments mkState {Consumer} _ _ _ _.
Arguments initial {Consumer} c0.
Arguments goto {Consumer} l st.
Arguments setClient {Consumer} c st.
Arguments setRoutes {Consumer} r st.
Arguments enumerate build ports {Consumer} updateFunc w st : simpl never.
Arguments Enumerated build ports {Consumer} updateFunc w st _.
Arguments outerStep build ports {Consumer} updateFunc w st.
Arguments unlisten {Consumer} watching st.
Arguments selectStep build ports {Consumer} updateFunc w st.
Arguments innerStep build ports {Consumer} updateFunc watching w st.
Arguments step build ports {Consumer} updateFunc w st.
Arguments run build ports {Consumer} updateFunc ws st.

(** What the loop does besides publishing: its actions without the calls
    of the callback, and its state without the consumer. *)
Definition isUpdate (a : Action) : bool :=
  match a with
  | ActUpdate _ => true
  | _ => false
  end.

Definition withoutUpdates (acts : list Action) : list Action :=
  filter (fun a => isUpdate a = false) acts.

Definition control {Consumer} (st : State Consumer)
  : option ClientRef * Routes * Loc :=
  (client st, routes st, loc st).

Definition silenced {Consumer} (p : Prog (State Consumer))
  : list Action * Outcome (option ClientRef * Routes * Loc) :=
  (withoutUpdates p.1,
   match p.2 with
   | Returned st => Returned (control st)
   | Panicked => Panicked
   end).

(** The select is reached in this iteration of the inner loop: the ping
    succeeds and the loop is, or becomes, subscribed to the events. *)
Definition reachesSelect (watching : bool) (w : World) : Prop :=
  ping w = None
  ∧ (watching = true
     ∨ addEventListener w = None
     ∨ addEventListener w = Some ErrListenerAlreadyExists).

(** ** Concrete inputs: the scenarios of the specification *)

(** A route builder for the scenarios: it reads the host key from the
    declaration [VIRTUAL_HOST=<key>] and leaves the endpoint empty. *)
Fixpoint virtualHost (env : list string) : string :=
  match env with
  | [] => ""
  | decl :: rest =>
      if String.prefix "VIRTUAL_HOST=" decl
      then String.substring 13 (String.length decl - 13) decl
      else virtualHost rest
  end.

Definition scenarioBuild (env : list string) : RouteBuilder :=
  mkRoute (virtualHost env) (mkEndpoint "" "" "").

Definition scenarioPorts : string := "80,8080,3000,5000".

Definition fooEnv : list string := ["VIRTUAL_HOST=foo.example.com"].

Definition fooID : string :=
  "4f2a9c1e7b3d5a6088c1d2e3f4a5b6c7d8e9f0a1b2c3d4e5f60718293a4b5c6d".

(** Port 8080 exposed and not published, on the local bridge. *)
Definition fooBridge : Container.t :=
  Container.mk fooID "/foo" fooEnv
    (NetworkSettings.mk "172.17.0.2" {[ "8080/tcp" := [] ]} ∅) None.

(** The same with [8080/tcp -> 0.0.0.0:32768]. *)
Definition fooWildcard : Container.t :=
  Container.mk fooID "/foo" fooEnv
    (NetworkSettings.mk "172.17.0.2"
       {[ "8080/tcp" := [PortBinding.mk "0.0.0.0" "32768"] ]} ∅) None.

(** The same with [8080/tcp -> 10.0.0.5:32768]. *)
Definition fooBound : Container.t :=
  Container.mk fooID "/foo" fooEnv
    (NetworkSettings.mk "172.17.0.2"
       {[ "8080/tcp" := [PortBinding.mk "10.0.0.5" "32768"] ]} ∅) None.

(** A published port whose binding carries no host address. *)
Definition fooUnaddressed : Container.t :=
  Container.mk fooID "/foo" fooEnv
    (NetworkSettings.mk "172.17.0.2"
       {[ "8080/tcp" := [PortBinding.mk "" "32768"] ]} ∅) None.

(** No bridge address; attached to two user networks. *)
Definition frontNet : ContainerNetwork.t := ContainerNetwork.mk "10.1.0.2".
Definition backNet : ContainerNetwork.t := ContainerNetwork.mk "10.2.0.2".

Definition fooTwoNets : Container.t :=
  Container.mk fooID "/foo" fooEnv
    (NetworkSettings.mk "" {[ "8080/tcp" := [] ]}
       {[ "front" := frontNet; "back" := backNet ]}) None.

(** Nothing exposed: no port can be resolved. *)
Definition fooNoPort : Container.t :=
  Container.mk fooID "/foo" fooEnv (NetworkSettings.mk "172.17.0.2" ∅ ∅) None.

Definition barID : string :=
  "9e8d7c6b5a4f3e2d1c0b9a8f7e6d5c4b3a2f1e0d9c8b7a6f5e4d3c2b1a0f9e8d".

Definition barBridge : Container.t :=
  Container.mk barID "/bar" ["VIRTUAL_HOST=bar.example.com"]
    (NetworkSettings.mk "172.17.0.3" {[ "80/tcp" := [] ]} ∅) None.

(** A daemon that lists the given containers and inspects them all. *)
Definition daemonOf (containers : list Container.t) : Client.t :=
  Client.mk
    (inl ((fun c => APIContainers.mk (Container.ID c)) <$> containers))
    (fun id =>
       match list_find (fun c => Container.ID c = id) containers with
       | Some (_, c) => inl c
       | None => inr (ErrOther "No such container")
       end).


(** A daemon that cannot be reached. *)
Definition daemonDown : Client.t :=
  Client.mk (inr (ErrOther "dial unix /var/run/docker.sock: connection refused"))
    (fun _ => inr (ErrOther "dial unix /var/run/docker.sock: connection refused")).

(** A consumer that keeps the last table it was given. *)
Definition keepLast : option (Routes → Routes → Routes) :=
  Some (fun routes _ => routes).

(** ** Conditions under which a pass does not depend on the schedule *)







(** ** Concrete runs *)

Definition fooRoute : RouteBuilder :=
  mkRoute "foo.example.com" (mkEndpoint "172.17.0.2" "8080" "/foo").

Definition barRoute : RouteBuilder :=
  mkRoute "bar.example.com" (mkEndpoint "172.17.0.3" "80" "/bar").

Definition twoContainers : Client.t := daemonOf [fooBridge; barBridge].


Definition twoRoutes : Routes := MkRoutes (Add (Add ∅ fooRoute) barRoute).

(** The daemon answers and nothing happens before the idle timeout. *)
Definition idle : World :=
  mkWorld None (inl 1%nat) twoContainers (inOrder twoContainers) None TimedOut.

(** The daemon stops answering pings. *)
Definition unreachable : World :=
  mkWorld (Some (ErrOther "EOF")) (inr (ErrOther "connection refused"))
    daemonDown [] (Some (ErrOther "EOF")) TimedOut.

(** The event stream is closed. *)
Definition streamClosed : World :=
  mkWorld None (inl 2%nat) twoContainers (inOrder twoContainers) None (Event None).

(** A container starts. *)
Definition fooStarts : World :=
  mkWorld None (inl 1%nat) twoContainers (inOrder twoContainers) None
    (Event (Some (APIEvents.mk "start" fooID))).

(** An event that is not about the life of a container. *)
Definition fooRenamed : World :=
  mkWorld None (inl 1%nat) twoContainers (inOrder twoContainers) None
    (Event (Some (APIEvents.mk "rename" fooID))).

(** A container dies while the daemon cannot list. *)
Definition fooDiesUnlisted : World :=
  mkWorld None (inl 1%nat) daemonDown [] None
    (Event (Some (APIEvents.mk "die" fooID))).

(** Connected, subscribed, with a table published. *)
Definition watchingState : State Routes :=
  mkState (Some 1%nat) twoRoutes twoRoutes (Inner true).

(** ** Further vocabulary *)

(** [strings.Join(pieces, ",")], the inverse of [Split]. *)
Fixpoint joinComma (pieces : list string) : string :=
  match pieces with
  | [] => ""
  | [piece] => piece
  | piece :: rest => piece +:+ "," +:+ joinComma rest
  end.

Fixpoint containsComma (s : string) : bool :=
  match s with
  | EmptyString => false
  | String c rest => Ascii.eqb c ","%char || containsComma rest
  end.





(** What one failed attempt to connect does. *)
Definition failedAttempt : list Action :=
  [ActNewClient;
   ActLog ErrorLevel "Unable to connect to docker daemon:";
   ActSleep ReconnectTime].

(** The world of an iteration in which the subscription is answered
    differently. *)
Definition withListener (answer : option error) (w : World) : World :=
  mkWorld (ping w) (newClient w) (daemon w) (arrivals w) answer (selected w).

(** A container of a remote node, published on 0.0.0.0 only. *)
Definition fooRemote : Container.t :=
  Container.mk fooID "/node1/foo" fooEnv
    (NetworkSettings.mk "172.17.0.2"
       {[ "8080/tcp" := [PortBinding.mk "0.0.0.0" "32768"] ]} ∅)
    (Some (SwarmNode.mk "node1")).

(** A container whose identifier is cut short. *)
Definition fooShort : Container.t :=
  Container.mk "4f2a9c" "/foo" fooEnv (NetworkSettings.mk "172.17.0.2" ∅ ∅) None.

(** A builder that also declares the port 9000. *)
Definition portBuild (env : list string) : RouteBuilder :=
  mkRoute (virtualHost env) (mkEndpoint "" "9000" "").

(** The daemon runs nothing. *)
Definition daemonEmpty : Client.t := daemonOf [].

(** No daemon to connect to. *)
Definition noDaemon : World :=
  mkWorld None (inr (ErrOther "connection refused")) daemonDown [] None TimedOut.

(** The daemon refuses the subscription. *)
Definition refused : World :=
  mkWorld None (inl 1%nat) twoContainers (inOrder twoContainers)
    (Some (ErrOther "EOF")) TimedOut.

(** Connected, not yet subscribed. *)
Definition connectedState : State Routes :=
  mkState (Some 1%nat) twoRoutes twoRoutes (Inner false).

(** A client is created but the daemon cannot list. *)
Definition connectsUnlisted : World :=
  mkWorld None (inl 1%nat) daemonDown [] None TimedOut.

(** ** Properties of the enumeration *)


Section EnumeratorFacts.

Variable build : list string → RouteBuilder.
Variable ports : string.

Lemma isValid_spec route :
  isValid route = true ↔
  host_key route ≠ "" ∧ IP (Upstream route) ≠ "" ∧ Port (Upstream route) ≠ "".
Proof.
  unfold isValid. rewrite !andb_true_iff, !bool_decide_eq_true. tauto.
Qed.

Lemma useBindings_host_key bindings route :
  host_key (useBindings bindings route) = host_key route.
Proof.
  induction bindings as [|b bs IH]; simpl; [done|]. by case_decide.
Qed.

Lemma useNetworks_host_key nets route :
  host_key (useNetworks nets route) = host_key route.
Proof.
  induction nets as [|[n net] rest IH]; simpl; [done|]. by case_decide.
Qed.

Lemma resolveAddress_host_key nets container route :
  host_key (resolveAddress nets container route) = host_key route.
Proof.
  unfold resolveAddress, useOtherNetwork, useBridge.
  repeat case_match; simpl;
    rewrite ?useNetworks_host_key; simpl; by rewrite ?useBindings_host_key.
Qed.

Lemma resolvePort_host_key container route :
  host_key (resolvePort ports container route) = host_key route.
Proof. unfold resolvePort. by repeat case_match. Qed.

(** What the loop body hands to [routes.Add]. *)
Lemma loopBody_admits container nets route :
  loopBody build ports (container, nets) = Returned (Some route) →
  isValid route = true
  ∧ host_key route = host_key (build (Container.Env container))
  ∧ (7 ≤ String.length (Container.ID container))%nat.
Proof.
  unfold loopBody, debugFields, slice_to.
  repeat (case_decide || case_match); simpl; try discriminate.
  all: intros [= <-]; split_and!; try done.
  all: try (by apply negb_false_iff).
  all: rewrite resolveAddress_host_key; simpl; apply resolvePort_host_key.
Qed.

Lemma wellKeyed_Add table route :
  wellKeyed table → isValid route = true → wellKeyed (Add table route).
Proof.
  intros Htable Hroute key r. unfold Add.
  rewrite lookup_insert. case_decide as Hkey.
  - intros [= <-]. by split.
  - apply Htable.
Qed.

Lemma receiveAll_wellKeyed arrivals table table' :
  receiveAll build ports arrivals table = Returned table' →
  wellKeyed table → wellKeyed table'.
Proof.
  revert table. induction arrivals as [|[c nets] rest IH]; intros table; simpl.
  - by intros [= <-].
  - destruct (loopBody build ports (c, nets)) as [[route|]|] eqn:Hbody;
      simpl; try discriminate.
    + intros Hrest Htable. apply (IH _ Hrest).
      apply wellKeyed_Add; [done|]. by apply loopBody_admits in Hbody as [? _].
    + intros Hrest Htable. by apply (IH _ Hrest).
Qed.

(** C1. Every snapshot that [createRoutes] returns with a nil error is a
    table in which each route is stored under its host key and is valid:
    host key, upstream IP and upstream port are all non-empty. *)
Theorem createRoutes_only_valid client arrivals snapshot :
  createRoutes build ports client arrivals = Returned (snapshot, None) →
  ∃ table, snapshot = MkRoutes table
    ∧ ∀ key route, table !! key = Some route →
        key = host_key route
        ∧ host_key route ≠ ""
        ∧ IP (Upstream route) ≠ ""
        ∧ Port (Upstream route) ≠ "".
Proof.
  unfold createRoutes. destruct (Client.ListContainers client); [|discriminate].
  destruct (receiveAll build ports arrivals ∅) as [table|] eqn:Hall;
    simpl; [|discriminate].
  intros [= <-]. exists table. split; [done|].
  intros key route Hkey.
  assert (wellKeyed table) as Hwk.
  { apply (receiveAll_wellKeyed _ _ _ Hall). intros k r. by rewrite lookup_empty. }
  destruct (Hwk _ _ Hkey) as [-> Hvalid]. by apply isValid_spec in Hvalid.
Qed.

End EnumeratorFacts.

Section ResolutionFacts.

Variable build : list string → RouteBuilder.
Variable ports : string.

(** *** Port resolution *)

Lemma findPort_first candidates declared i port :
  candidates !! i = Some port →
  is_Some (declared !! portDef port) →
  (∀ j q, (j < i)%nat → candidates !! j = Some q → declared !! portDef q = None) →
  findPort candidates declared = Some port.
Proof.
  revert i. induction candidates as [|p rest IH]; intros i; [done|].
  destruct i as [|i]; simpl.
  - intros [= ->] [bs ->] _. done.
  - intros Hi Hport Hbefore.
    rewrite (Hbefore 0%nat p); [|lia|done].
    apply (IH i); [done..|].
    intros j q Hj. apply (Hbefore (S j)). lia.
Qed.

Lemma findPort_none candidates declared :
  (∀ q, q ∈ candidates → declared !! portDef q = None) →
  findPort candidates declared = None.
Proof.
  induction candidates as [|p rest IH]; intros Hnone; simpl; [done|].
  rewrite (Hnone p) by left. apply IH. intros q Hq. apply Hnone. by right.
Qed.

(** A container without a port contributes nothing to the table under
    construction, wherever it arrives. *)
Lemma receiveAll_skip before arrival after table :
  loopBody build ports arrival = Returned None →
  receiveAll build ports (before ++ arrival :: after) table
  = receiveAll build ports (before ++ after) table.
Proof.
  intros Hskip. revert table.
  induction before as [|a before IH]; intros table; simpl.
  - by rewrite Hskip.
  - destruct (loopBody build ports a) as [r|]; simpl; [apply IH|done].
Qed.

(** C3. When the builder declares no port, the resolved port is the
    first candidate of the configured list, in list order, whose
    [<port>/tcp] is a key of the container's port bindings; when no
    candidate is such a key the container yields no route, and the
    table is the one obtained without that container. *)
Theorem resolvePort_first_candidate container :
  Port (Upstream (build (Container.Env container))) = "" →
  let declared := NetworkSettings.Ports (Container.NetworkSettings container) in
  (∀ i port,
      Split ports !! i = Some port →
      is_Some (declared !! portDef port) →
      (∀ j q, (j < i)%nat → Split ports !! j = Some q →
              declared !! portDef q = None) →
      Port (Upstream (resolvePort ports container (build (Container.Env container))))
      = port)
  ∧ ((∀ q, q ∈ Split ports → declared !! portDef q = None) →
     ∀ nets,
       (∀ route, loopBody build ports (container, nets) ≠ Returned (Some route))
       ∧ ∀ before after table table',
           receiveAll build ports (before ++ (container, nets) :: after) table
           = Returned table' →
           receiveAll build ports (before ++ after) table = Returned table').
Proof.
  intros Hnoport declared. split.
  - intros i port Hi Hkey Hbefore. unfold resolvePort.
    rewrite decide_True by done.
    by rewrite (findPort_first _ _ i port).
  - intros Hnone nets.
    assert (loopBody build ports (container, nets) = Returned None
            ∨ loopBody build ports (container, nets) = Panicked) as Hbody.
    { unfold loopBody, resolvePort. rewrite (decide_True _ _ Hnoport).
      fold declared. rewrite (findPort_none _ _ Hnone).
      rewrite (decide_True _ _ Hnoport).
      unfold debugFields. destruct (slice_to _ _); simpl; auto. }
    split.
    + intros route. destruct Hbody as [-> | ->]; discriminate.
    + intros before after table table'. destruct Hbody as [Hskip | Hpanic].
      * by rewrite (receiveAll_skip _ _ _ _ Hskip).
      * intros Hall. exfalso. revert table Hall.
        induction before as [|a before IH]; intros table; simpl.
        -- by rewrite Hpanic.
        -- destruct (loopBody build ports a); simpl; [apply IH|done].
Qed.

(** *** Address resolution *)

Lemma useBindings_first bindings route i binding :
  bindings !! i = Some binding →
  PortBinding.HostIP binding ≠ "0.0.0.0" →
  (∀ j b, (j < i)%nat → bindings !! j = Some b → PortBinding.HostIP b = "0.0.0.0") →
  useBindings bindings route
  = setPort (setIP route (PortBinding.HostIP binding)) (PortBinding.HostPort binding).
Proof.
  revert i. induction bindings as [|b rest IH]; intros i; [done|].
  destruct i as [|i]; simpl.
  - intros [= ->] Hip _. by rewrite decide_True.
  - intros Hi Hip Hbefore.
    rewrite decide_False by (intros Hne; apply Hne, (Hbefore 0%nat); [lia|done]).
    apply (IH i); [done..|]. intros j b' Hj. apply (Hbefore (S j)). lia.
Qed.

Lemma useBindings_wildcard bindings route :
  Forall (fun b => PortBinding.HostIP b = "0.0.0.0") bindings →
  useBindings bindings route = route.
Proof.
  induction 1 as [|b rest Hb _ IH]; simpl; [done|].
  by rewrite decide_False by (intros Hne; by apply Hne).
Qed.

Lemma useNetworks_first nets route i name network :
  nets !! i = Some (name, network) →
  ContainerNetwork.IPAddress network ≠ "" →
  (∀ j n, (j < i)%nat → nets !! j = Some n → ContainerNetwork.IPAddress n.2 = "") →
  useNetworks nets route = setIP route (ContainerNetwork.IPAddress network).
Proof.
  revert i. induction nets as [|[n0 net0] rest IH]; intros i; [done|].
  destruct i as [|i]; simpl.
  - intros [= -> ->] Hip _. by rewrite decide_True.
  - intros Hi Hip Hbefore.
    rewrite decide_False
      by (intros Hne; apply Hne, (Hbefore 0%nat (n0, net0)); [lia|done]).
    apply (IH i); [done..|]. intros j b' Hj. apply (Hbefore (S j)). lia.
Qed.

(** X6. Rule a: the first binding of the resolved port that is not on
    0.0.0.0 decides, when it carries an address: the upstream gets its
    host IP and its host port, whatever the bridge and the networks say. *)
Lemma resolveAddress_binding nets container route i binding :
  bindingsOf container route !! i = Some binding →
  PortBinding.HostIP binding ≠ "0.0.0.0" →
  PortBinding.HostIP binding ≠ "" →
  (∀ j b, (j < i)%nat → bindingsOf container route !! j = Some b →
          PortBinding.HostIP b = "0.0.0.0") →
  Upstream (resolveAddress nets container route)
  = mkEndpoint (PortBinding.HostIP binding) (PortBinding.HostPort binding)
      (Container (Upstream route)).
Proof.
  intros Hi Hwild Hempty Hbefore. unfold resolveAddress.
  rewrite (useBindings_first _ _ i binding) by done.
  unfold useOtherNetwork, useBridge; simpl.
  rewrite (bool_decide_eq_false_2 _ Hempty), andb_false_r; simpl.
  by rewrite (bool_decide_eq_false_2 _ Hempty), andb_false_r.
Qed.

(** X7. Rule b: with no binding or wildcard bindings only, a local
    container for which the builder gave no address gets its bridge
    address and keeps the resolved port. *)
Lemma resolveAddress_bridge nets container route :
  Forall (fun b => PortBinding.HostIP b = "0.0.0.0") (bindingsOf container route) →
  isLocal container = true →
  IP (Upstream route) = "" →
  NetworkSettings.IPAddress (Container.NetworkSettings container) ≠ "" →
  Upstream (resolveAddress nets container route)
  = mkEndpoint (NetworkSettings.IPAddress (Container.NetworkSettings container))
      (Port (Upstream route)) (Container (Upstream route)).
Proof.
  intros Hwild Hlocal Hip Hbridge. unfold resolveAddress.
  rewrite useBindings_wildcard by done.
  unfold useOtherNetwork, useBridge. rewrite Hlocal; simpl.
  rewrite (bool_decide_eq_true_2 _ Hip); simpl.
  by rewrite (bool_decide_eq_false_2 _ Hbridge).
Qed.

(** X8. Rule c: without a bridge address, such a container gets the
    address of the first attached network that has one, in the order of
    the iteration, and keeps the resolved port. *)
Lemma resolveAddress_network nets container route i name network :
  Forall (fun b => PortBinding.HostIP b = "0.0.0.0") (bindingsOf container route) →
  isLocal container = true →
  IP (Upstream route) = "" →
  NetworkSettings.IPAddress (Container.NetworkSettings container) = "" →
  nets !! i = Some (name, network) →
  ContainerNetwork.IPAddress network ≠ "" →
  (∀ j n, (j < i)%nat → nets !! j = Some n → ContainerNetwork.IPAddress n.2 = "") →
  Upstream (resolveAddress nets container route)
  = mkEndpoint (ContainerNetwork.IPAddress network)
      (Port (Upstream route)) (Container (Upstream route)).
Proof.
  intros Hwild Hlocal Hip Hbridge Hi Hnet Hbefore. unfold resolveAddress.
  rewrite useBindings_wildcard by done.
  unfold useOtherNetwork, useBridge. rewrite Hlocal; simpl.
  rewrite (bool_decide_eq_true_2 _ Hip); simpl. rewrite Hbridge; simpl.
  by rewrite (useNetworks_first _ _ i name network).
Qed.

End ResolutionFacts.

(** The three scenarios of the specification. *)
Example scenario_bridge :
  loopBody scenarioBuild scenarioPorts (fooBridge, [])
  = Returned (Some (mkRoute "foo.example.com" (mkEndpoint "172.17.0.2" "8080" "/foo"))).
Proof. reflexivity. Qed.

Example scenario_wildcard :
  loopBody scenarioBuild scenarioPorts (fooWildcard, [])
  = Returned (Some (mkRoute "foo.example.com" (mkEndpoint "172.17.0.2" "8080" "/foo"))).
Proof. reflexivity. Qed.

Example scenario_bound :
  loopBody scenarioBuild scenarioPorts (fooBound, [])
  = Returned (Some (mkRoute "foo.example.com" (mkEndpoint "10.0.0.5" "32768" "/foo"))).
Proof. reflexivity. Qed.

(** C2. A binding off the wildcard address that carries no host address
    is selected for the port only: the local container is published on
    its bridge address with the bound host port, a mix of rules a and b. *)
Theorem unaddressed_binding_mixes_rules :
  PortBinding.HostIP (PortBinding.mk "" "32768") ≠ "0.0.0.0"
  ∧ bindingsOf fooUnaddressed
      (resolvePort scenarioPorts fooUnaddressed (scenarioBuild fooEnv))
    = [PortBinding.mk "" "32768"]
  ∧ Port (Upstream (resolvePort scenarioPorts fooUnaddressed (scenarioBuild fooEnv)))
    = "8080"
  ∧ loopBody scenarioBuild scenarioPorts (fooUnaddressed, [])
    = Returned (Some (mkRoute "foo.example.com"
                        (mkEndpoint "172.17.0.2" "32768" "/foo"))).
Proof. split_and!; [discriminate | reflexivity..]. Qed.

Section ScheduleFacts.

Variable build : list string → RouteBuilder.
Variable ports : string.








End ScheduleFacts.

Section InspectionFacts.

Variable build : list string → RouteBuilder.
Variable ports : string.




Lemma scheduled_intro client containers arrivals :
  Client.ListContainers client = inl containers →
  arrivals.*1 ≡ₚ inspected client containers →
  Forall (fun a : Arrival =>
            a.2 ≡ₚ map_to_list
                     (NetworkSettings.Networks (Container.NetworkSettings a.1)))
    arrivals →
  scheduled client arrivals.
Proof. unfold scheduled. by intros ->. Qed.




End InspectionFacts.

(** ** Properties of the event loop *)

(** Membership in an explicit list of actions. *)
Ltac in_acts :=
  repeat match goal with
    | H : _ ∈ [] |- _ => by apply elem_of_nil in H
    | H : _ ∈ (_ :: _) |- _ => apply elem_of_cons in H as [H|H]; [try discriminate|]
    | H : _ ∈ (_ ++ _) |- _ => apply elem_of_app in H as [H|H]
    end.

Ltac has_act :=
  repeat first [apply list_elem_of_here | apply list_elem_of_further].

(** One iteration of the loop, by cases on the answers of the world it
    looks at. *)
Ltac loop_cases :=
  unfold step, outerStep, innerStep, selectStep, unlisten, enumerate;
  repeat (simpl;
    match goal with
    | |- context [ match ?x with _ => _ end ] =>
        lazymatch x with
        | loc _ => destruct x as [|[]] eqn:?
        | client _ => destruct x eqn:?
        | ping _ => destruct x eqn:?
        | bool_decide (ping ?w = None) => destruct (ping w) eqn:?
        | newClient _ => destruct x eqn:?
        | addEventListener _ => destruct x as [[]|] eqn:?
        | selected _ => destruct x as [[?|]|] eqn:?
        | isLifecycle _ => destruct x eqn:?
        | slice_to _ _ => destruct x eqn:?
        | createRoutes _ _ _ _ => destruct x as [[? [?|]]|] eqn:?
        | _ => is_var x; destruct x eqn:?
        end
    end);
  simpl.

Section LoopFacts.

Variable build : list string → RouteBuilder.
Variable ports : string.
Variable Consumer : Type.
Variable updateFunc : option (Routes → Consumer → Consumer).

Lemma enumerate_cases w (st : State Consumer) :
  Enumerated build ports updateFunc w st (enumerate build ports updateFunc w st).
Proof.
  unfold enumerate.
  destruct (createRoutes build ports (daemon w) (arrivals w))
    as [[r [err|]]|] eqn:Hcreate; simpl.
  - by eapply enum_fails.
  - destruct updateFunc as [f|] eqn:Hf; simpl.
    + by eapply enum_publishes.
    + by eapply enum_silent.
  - by eapply enum_panics.
Qed.

(** When [createRoutes] returns a nil error, its table is not nil. *)
Lemma createRoutes_table client schedule r :
  createRoutes build ports client schedule = Returned (r, None) →
  ∃ table, r = MkRoutes table.
Proof.
  unfold createRoutes. destruct (Client.ListContainers client); [|done].
  destruct (receiveAll build ports schedule ∅); simpl; [|done].
  intros [= <-]. by eexists.
Qed.

Lemma createRoutes_listing_fails client schedule err :
  Client.ListContainers client = inr err →
  createRoutes build ports client schedule = Returned (NilRoutes, Some err).
Proof. unfold createRoutes. by intros ->. Qed.

(** Every call of the callback in one iteration follows an enumeration
    that returned the table of the call with a nil error. *)
Lemma step_update w (st : State Consumer) r :
  ActUpdate r ∈ (step build ports updateFunc w st).1 →
  updateFunc ≠ None
  ∧ createRoutes build ports (daemon w) (arrivals w) = Returned (r, None).
Proof.
  loop_cases; intros Hin; in_acts; by simplify_eq.
Qed.

(** The consumer changes only through the callback. *)
Lemma step_consumer w (st st' : State Consumer) :
  (step build ports updateFunc w st).2 = Returned st' →
  (∀ r, ActUpdate r ∉ (step build ports updateFunc w st).1) →
  consumer st' = consumer st.
Proof.
  loop_cases; try (by intros [= <-]); try done.
  all: intros _ Hno; exfalso; eapply Hno; has_act.
Qed.

(** C4. When the listing fails, [createRoutes] returns that error and
    the nil table, whatever the inspections would have answered, and the
    iteration of the loop that enumerates does not call the callback:
    the consumer keeps what it had. *)
Theorem listing_failure_publishes_nothing w (st : State Consumer) err :
  Client.ListContainers (daemon w) = inr err →
  createRoutes build ports (daemon w) (arrivals w)
  = Returned (NilRoutes, Some err)
  ∧ (∀ inspect schedule,
       createRoutes build ports (Client.mk (inr err) inspect) schedule
       = Returned (NilRoutes, Some err))
  ∧ (∀ r, ActUpdate r ∉ (step build ports updateFunc w st).1)
  ∧ (∀ st', (step build ports updateFunc w st).2 = Returned st' →
            consumer st' = consumer st).
Proof.
  intros Hlist.
  assert (∀ r, ActUpdate r ∉ (step build ports updateFunc w st).1) as Hno.
  { intros r Hin. apply (step_update w st) in Hin as [_ Hin].
    by rewrite (createRoutes_listing_fails _ _ _ Hlist) in Hin. }
  split_and!.
  - by apply createRoutes_listing_fails.
  - intros inspect schedule. by apply createRoutes_listing_fails.
  - done.
  - intros st' Hst'. by apply (step_consumer w).
Qed.

(** C6, as the code has it.  A failed ping in the inner loop is always
    followed by the wait of [ReconnectTime] and the return to the outer
    loop; the subscription is removed and the client handle dropped
    only when the loop was watching.  When it was not, the handle is
    kept, and the next iteration connects again only if a ping on the
    kept handle succeeds. *)
Theorem ping_failure_backs_off watching w (st : State Consumer) c err :
  client st = Some c →
  ping w = Some err →
  ∃ acts st',
    innerStep build ports updateFunc watching w st = (acts, Returned st')
    ∧ last acts = Some (ActSleep ReconnectTime)
    ∧ loc st' = Outer
    ∧ consumer st' = consumer st
    ∧ (if watching
       then (ActRemoveEventListener ∈ acts ∧ client st' = None)
       else ((ActRemoveEventListener ∉ acts) ∧ client st' = Some c))
    ∧ ∀ w', (ActNewClient ∈ (step build ports updateFunc w' st').1)
            ↔ (watching = true ∨ ping w' = None).
Proof.
  intros Hclient Hping. unfold innerStep. rewrite Hclient, Hping.
  destruct watching; simpl; eexists _, _; (split; [reflexivity|]); simpl.
  - split_and!; try done; [has_act|].
    intros w'. split; [auto|intros _]. loop_cases; has_act.
  - split_and!; try done; [intros Hin; in_acts|].
    intros w'. unfold step, outerStep; simpl. rewrite Hclient.
    destruct (ping w') eqn:Hping'; simpl.
    + split; [intros Hin; in_acts|]. by intros [?|?].
    + split; [auto|intros _]. loop_cases; has_act.
Qed.

(** C7. A nil event received at the select removes the subscription and
    drops the client handle without any sleep; the next iteration leaves
    the inner loop without doing anything, and the one after starts with
    the connection attempt, which sleeps if and only if it fails. *)
Theorem nil_event_reconnects_at_once watching w (st : State Consumer) c :
  client st = Some c →
  reachesSelect watching w →
  selected w = Event None →
  ∃ acts st1,
    innerStep build ports updateFunc watching w st = (acts, Returned st1)
    ∧ ActRemoveEventListener ∈ acts
    ∧ (∀ d, ActSleep d ∉ acts)
    ∧ client st1 = None
    ∧ loc st1 = Inner false
    ∧ (∀ w1, step build ports updateFunc w1 st1 = ([], Returned (goto Outer st1)))
    ∧ ∀ w2, ∃ acts2,
        (step build ports updateFunc w2 (goto Outer st1)).1 = ActNewClient :: acts2
        ∧ ((∃ d, ActSleep d ∈ acts2) ↔ ∃ e, newClient w2 = inr e).
Proof.
  intros Hclient [Hping Hwatch] Hnil.
  assert (∀ st1 : State Consumer, client st1 = None →
            ∀ w2, ∃ acts2,
              (step build ports updateFunc w2 (goto Outer st1)).1
              = ActNewClient :: acts2
              ∧ ((∃ d, ActSleep d ∈ acts2) ↔ ∃ e, newClient w2 = inr e))
    as Hnext.
  { intros st1 Hst1 w2. unfold step, outerStep; simpl. rewrite Hst1.
    loop_cases; eexists; (split; [reflexivity|]).
    all: split; [intros [d Hin]; in_acts; eauto|intros [e' [=]]].
    all: eexists; has_act. }
  unfold innerStep, selectStep, unlisten. rewrite Hclient, Hping, Hnil.
  destruct watching; [|destruct Hwatch as [[=]|[->| ->]]]; simpl.
  all: eexists _, _; (split; [reflexivity|]); simpl.
  all: split_and!; [has_act|intros d Hin; in_acts|done|done|done|by apply Hnext].
Qed.

Lemma isLifecycle_spec status :
  isLifecycle status = true ↔ status = "start" ∨ status = "stop" ∨ status = "die".
Proof.
  unfold isLifecycle. rewrite !orb_true_iff, !bool_decide_eq_true. tauto.
Qed.

(** C8. For a non-nil event received at the select: the iteration
    enumerates only if the status is start, stop or die, and does so for
    these (the log line before it slices 12 bytes off the event's ID);
    an event of another kind causes no enumeration and no call of the
    callback; when the enumeration returns an error, the error is
    logged, the callback is not called and the consumer keeps what it
    had; when it returns a table, the callback gets it. *)
Theorem lifecycle_events_enumerate watching w (st : State Consumer) c event :
  loc st = Inner watching →
  client st = Some c →
  reachesSelect watching w →
  selected w = Event (Some event) →
  let lifecycle :=
    APIEvents.Status event = "start" ∨ APIEvents.Status event = "stop"
    ∨ APIEvents.Status event = "die" in
  let long := (12 ≤ String.length (APIEvents.ID event))%nat in
  let p := step build ports updateFunc w st in
  (ActCreateRoutes ∈ p.1 → lifecycle)
  ∧ (lifecycle → long → ActCreateRoutes ∈ p.1)
  ∧ (¬ lifecycle →
     (ActCreateRoutes ∉ p.1) ∧ (∀ r, ActUpdate r ∉ p.1)
     ∧ ∃ st', p.2 = Returned st' ∧ consumer st' = consumer st)
  ∧ (lifecycle → long → ∀ r err,
       createRoutes build ports (daemon w) (arrivals w) = Returned (r, Some err) →
       (∀ r', ActUpdate r' ∉ p.1)
       ∧ ActLog ErrorLevel "Error enumerating routes:" ∈ p.1
       ∧ ∃ st', p.2 = Returned st' ∧ consumer st' = consumer st)
  ∧ (lifecycle → long → ∀ r f,
       createRoutes build ports (daemon w) (arrivals w) = Returned (r, None) →
       updateFunc = Some f →
       ActUpdate r ∈ p.1
       ∧ ∃ st', p.2 = Returned st' ∧ consumer st' = f r (consumer st)).
Proof.
  intros Hloc Hclient [Hping Hwatch] Hsel lifecycle long p.
  pose proof (isLifecycle_spec (APIEvents.Status event)) as Hlife.
  fold lifecycle in Hlife.
  assert (long → slice_to (APIEvents.ID event) 12
                 = Returned (String.substring 0 12 (APIEvents.ID event))) as Hslice.
  { intros Hlong. unfold slice_to. by rewrite decide_True. }
  subst p. unfold step. rewrite Hloc. unfold innerStep, selectStep.
  rewrite Hclient, Hping, Hsel.
  destruct (isLifecycle (APIEvents.Status event)) eqn:Hl.
  - assert lifecycle as Hyes by by apply Hlife.
    split_and!; [done| | by intros []| |].
    + intros _ Hlong. rewrite (Hslice Hlong).
      destruct watching; [|destruct Hwatch as [[=]|[->| ->]]]; loop_cases; has_act.
    + intros _ Hlong r err Hcreate. rewrite (Hslice Hlong).
      unfold enumerate. rewrite Hcreate.
      destruct watching; [|destruct Hwatch as [[=]|[->| ->]]]; simpl.
      all: split_and!; [intros r' Hin; in_acts|has_act|by eexists].
    + intros _ Hlong r f Hcreate Hf. rewrite (Hslice Hlong).
      unfold enumerate. rewrite Hcreate, Hf.
      destruct watching; [|destruct Hwatch as [[=]|[->| ->]]]; simpl.
      all: split_and!; [has_act|by eexists].
  - assert (¬ lifecycle) as Hno by (rewrite <- Hlife; congruence).
    split_and!; [|done| |done|done].
    + destruct watching; [|destruct Hwatch as [[=]|[->| ->]]]; simpl.
      all: intros Hin; in_acts.
    + intros _.
      destruct watching; [|destruct Hwatch as [[=]|[->| ->]]]; simpl.
      all: split_and!; [intros Hin; in_acts|intros r Hin; in_acts|by eexists].
Qed.

(** *** The whole loop *)

Lemma bind_actions {A B} (m : Prog A) (k : A → Prog B) a :
  a ∈ (bind m k).1 → a ∈ m.1 ∨ ∃ x, m.2 = Returned x ∧ a ∈ (k x).1.
Proof.
  destruct m as [acts [x|]]; simpl; [|auto].
  destruct (k x) as [more b] eqn:Hk; simpl.
  intros [Hin|Hin]%elem_of_app; [auto|].
  right. exists x. by rewrite Hk.
Qed.

Lemma run_update ws (st : State Consumer) r :
  ActUpdate r ∈ (run build ports updateFunc ws st).1 →
  ∃ w st0, w ∈ ws ∧ ActUpdate r ∈ (step build ports updateFunc w st0).1.
Proof.
  revert st. induction ws as [|w rest IH]; intros st; simpl.
  - intros Hin. in_acts.
  - intros [Hin|(st' & _ & Hin)]%bind_actions.
    + exists w, st. split; [by left|done].
    + destruct (IH _ Hin) as (w' & st0 & Hw' & Hin').
      exists w', st0. split; [by right|done].
Qed.

End LoopFacts.

Lemma withoutUpdates_app acts more :
  withoutUpdates (acts ++ more) = (withoutUpdates acts ++ withoutUpdates more)%list.
Proof. apply filter_app. Qed.

Lemma silenced_bind {Consumer} (m1 m2 : Prog (State Consumer))
    (k1 k2 : State Consumer → Prog (State Consumer)) :
  silenced m1 = silenced m2 →
  (∀ st1 st2, control st1 = control st2 → silenced (k1 st1) = silenced (k2 st2)) →
  silenced (bind m1 k1) = silenced (bind m2 k2).
Proof.
  destruct m1 as [acts1 [st1|]], m2 as [acts2 [st2|]]; unfold silenced; simpl;
    intros Heq Hk; try discriminate.
  - injection Heq as Hacts Hc Hr Hl.
    assert (control st1 = control st2) as Hctl
      by (unfold control; by rewrite Hc, Hr, Hl).
    specialize (Hk st1 st2 Hctl). unfold silenced in Hk.
    destruct (k1 st1) as [more1 o1], (k2 st2) as [more2 o2]; simpl in *.
    injection Hk as Hmore Ho. by rewrite !withoutUpdates_app, Hacts, Hmore, Ho.
  - injection Heq as Hacts. by rewrite Hacts.
Qed.

(** Without a callback an iteration does what it does with one, except
    for the calls of the callback. *)
Lemma step_silenced build ports {Consumer}
    (updateFunc : option (Routes → Consumer → Consumer)) w (st1 st2 : State Consumer) :
  control st1 = control st2 →
  silenced (step build ports None w st1) = silenced (step build ports updateFunc w st2).
Proof.
  destruct st1 as [c1 r1 k1 l1], st2 as [c2 r2 k2 l2]. intros [= -> -> ->].
  unfold silenced, withoutUpdates.
  loop_cases; try reflexivity; destruct updateFunc; reflexivity.
Qed.

Lemma run_silenced build ports {Consumer}
    (updateFunc : option (Routes → Consumer → Consumer)) ws :
  ∀ st1 st2 : State Consumer,
    control st1 = control st2 →
    silenced (run build ports None ws st1) = silenced (run build ports updateFunc ws st2).
Proof.
  induction ws as [|w rest IH]; intros st1 st2 Hctl; simpl.
  - unfold silenced; simpl. by rewrite Hctl.
  - apply silenced_bind; [by apply step_silenced|]. apply IH.
Qed.

(** C10. Every table the loop hands to the callback was returned, with a
    nil error, by an enumeration of the loop, and is a made table, never
    the nil one; and with a nil callback the loop calls nothing and
    otherwise does the same: the same actions but for the calls, the same
    client, routes and place of control. *)
Theorem callback_gets_made_tables build ports {Consumer}
    (updateFunc : option (Routes → Consumer → Consumer)) ws (c0 : Consumer) :
  (∀ r, ActUpdate r ∈ (run build ports updateFunc ws (initial c0)).1 →
        updateFunc ≠ None
        ∧ ∃ table w, r = MkRoutes table ∧ w ∈ ws
            ∧ createRoutes build ports (daemon w) (arrivals w)
              = Returned (MkRoutes table, None))
  ∧ (∀ r, ActUpdate r ∉ (run build ports None ws (initial c0)).1)
  ∧ silenced (run build ports None ws (initial c0))
    = silenced (run build ports updateFunc ws (initial c0)).
Proof.
  split_and!.
  - intros r Hin. apply run_update in Hin as (w & st0 & Hw & Hin).
    apply step_update in Hin as [Hf Hcreate]. split; [done|].
    destruct (createRoutes_table _ _ _ _ _ Hcreate) as [table ->]. by exists table, w.
  - intros r Hin. apply run_update in Hin as (w & st0 & Hw & Hin).
    by apply step_update in Hin as [Hf _].
  - by apply run_silenced.
Qed.

(** ** The theorems on concrete runs *)

Lemma createRoutes_only_valid_holds :
  createRoutes scenarioBuild scenarioPorts twoContainers (inOrder twoContainers)
  = Returned (twoRoutes, None)
  ∧ ∃ table, twoRoutes = MkRoutes table
      ∧ ∀ key route, table !! key = Some route →
          key = host_key route
          ∧ host_key route ≠ ""
          ∧ IP (Upstream route) ≠ ""
          ∧ Port (Upstream route) ≠ "".
Proof.
  assert (createRoutes scenarioBuild scenarioPorts twoContainers (inOrder twoContainers)
          = Returned (twoRoutes, None)) as Hrun by (vm_compute; reflexivity).
  split; [exact Hrun|].
  exact (createRoutes_only_valid scenarioBuild scenarioPorts _ _ _ Hrun).
Defined.

Lemma resolvePort_first_candidate_holds :
  Port (Upstream (scenarioBuild (Container.Env fooBridge))) = ""
  ∧ Port (Upstream (resolvePort scenarioPorts fooBridge
                      (scenarioBuild (Container.Env fooBridge)))) = "8080"
  ∧ ∀ nets route,
      loopBody scenarioBuild scenarioPorts (fooNoPort, nets) ≠ Returned (Some route).
Proof.
  split; [reflexivity|]. split.
  - apply (proj1 (resolvePort_first_candidate scenarioBuild scenarioPorts
                    fooBridge eq_refl) 1%nat "8080").
    + reflexivity.
    + eexists. reflexivity.
    + intros [|j] q Hj; [|lia]. intros [= <-]. reflexivity.
  - intros nets.
    apply (proj2 (resolvePort_first_candidate scenarioBuild scenarioPorts
                    fooNoPort eq_refl)).
    intros q _. apply lookup_empty.
Defined.

Lemma listing_failure_publishes_nothing_holds :
  Client.ListContainers (daemon fooDiesUnlisted)
  = inr (ErrOther "dial unix /var/run/docker.sock: connection refused")
  ∧ (step scenarioBuild scenarioPorts keepLast fooDiesUnlisted watchingState).2
    = Returned (mkState (Some 1%nat) NilRoutes twoRoutes (Inner true))
  ∧ consumer (mkState (Some 1%nat) NilRoutes twoRoutes (Inner true))
    = consumer watchingState.
Proof.
  split; [reflexivity|]. split; [reflexivity|].
  apply (listing_failure_publishes_nothing scenarioBuild scenarioPorts Routes keepLast
           fooDiesUnlisted watchingState
           (ErrOther "dial unix /var/run/docker.sock: connection refused")
           eq_refl).
  reflexivity.
Defined.





(** C6 fails as stated: the loop connects, the first ping of the inner
    loop fails before any subscription, and after the wait the loop is back
    at the outer loop with the client handle it had, nothing removed. *)
Lemma ping_failure_keeps_unwatched_client :
  run scenarioBuild scenarioPorts keepLast [idle; unreachable] (initial NilRoutes)
  = ([ActNewClient; ActLog DebugLevel "Connected to docker daemon...";
      ActCreateRoutes; ActUpdate twoRoutes;
      ActPing; ActLog ErrorLevel "Unable to ping docker daemon:";
      ActSleep ReconnectTime],
     Returned (mkState (Some 1%nat) twoRoutes twoRoutes Outer))
  ∧ ¬ (∀ (watching : bool) (w : World) (st : State Routes) c err,
         client st = Some c → ping w = Some err →
         ∃ acts st',
           innerStep scenarioBuild scenarioPorts keepLast watching w st
           = (acts, Returned st')
           ∧ ActRemoveEventListener ∈ acts ∧ client st' = None).
Proof.
  split; [vm_compute; reflexivity|].
  intros Hclaim.
  destruct (Hclaim false unreachable
              (mkState (Some 1%nat) twoRoutes twoRoutes (Inner false))
              1%nat (ErrOther "EOF") eq_refl eq_refl)
    as (acts & st' & Hstep & _ & Hdropped).
  vm_compute in Hstep. injection Hstep as _ <-. discriminate.
Qed.

Lemma ping_failure_backs_off_holds :
  client watchingState = Some 1%nat
  ∧ ping unreachable = Some (ErrOther "EOF")
  ∧ ∃ acts st',
      innerStep scenarioBuild scenarioPorts keepLast true unreachable watchingState
      = (acts, Returned st')
      ∧ last acts = Some (ActSleep ReconnectTime)
      ∧ loc st' = Outer
      ∧ consumer st' = consumer watchingState
      ∧ (ActRemoveEventListener ∈ acts ∧ client st' = None)
      ∧ ∀ w', (ActNewClient ∈ (step scenarioBuild scenarioPorts keepLast w' st').1)
              ↔ (true = true ∨ ping w' = None).
Proof.
  split; [reflexivity|]. split; [reflexivity|].
  exact (ping_failure_backs_off scenarioBuild scenarioPorts Routes keepLast
           true unreachable watchingState 1%nat (ErrOther "EOF") eq_refl eq_refl).
Defined.

Lemma nil_event_reconnects_at_once_holds :
  client watchingState = Some 1%nat
  ∧ reachesSelect true streamClosed
  ∧ selected streamClosed = Event None
  ∧ ∃ acts st1,
      innerStep scenarioBuild scenarioPorts keepLast true streamClosed watchingState
      = (acts, Returned st1)
      ∧ ActRemoveEventListener ∈ acts
      ∧ (∀ d, ActSleep d ∉ acts)
      ∧ client st1 = None
      ∧ loc st1 = Inner false
      ∧ (∀ w1, step scenarioBuild scenarioPorts keepLast w1 st1
               = ([], Returned (goto Outer st1)))
      ∧ ∀ w2, ∃ acts2,
          (step scenarioBuild scenarioPorts keepLast w2 (goto Outer st1)).1
          = ActNewClient :: acts2
          ∧ ((∃ d, ActSleep d ∈ acts2) ↔ ∃ e, newClient w2 = inr e).
Proof.
  assert (reachesSelect true streamClosed) as Hreach.
  { split; [reflexivity|left; reflexivity]. }
  split; [reflexivity|]. split; [exact Hreach|]. split; [reflexivity|].
  exact (nil_event_reconnects_at_once scenarioBuild scenarioPorts Routes keepLast
           true streamClosed watchingState 1%nat eq_refl Hreach eq_refl).
Defined.

Lemma lifecycle_events_enumerate_holds :
  ActCreateRoutes
    ∈ (step scenarioBuild scenarioPorts keepLast fooStarts watchingState).1
  ∧ ((ActCreateRoutes
        ∉ (step scenarioBuild scenarioPorts keepLast fooRenamed watchingState).1)
     ∧ (∀ r, ActUpdate r
               ∉ (step scenarioBuild scenarioPorts keepLast fooRenamed watchingState).1)
     ∧ ∃ st', (step scenarioBuild scenarioPorts keepLast fooRenamed watchingState).2
              = Returned st'
              ∧ consumer st' = consumer watchingState)
  ∧ ((∀ r', ActUpdate r'
              ∉ (step scenarioBuild scenarioPorts keepLast fooDiesUnlisted
                   watchingState).1)
     ∧ ActLog ErrorLevel "Error enumerating routes:"
         ∈ (step scenarioBuild scenarioPorts keepLast fooDiesUnlisted watchingState).1
     ∧ ∃ st', (step scenarioBuild scenarioPorts keepLast fooDiesUnlisted
                 watchingState).2 = Returned st'
              ∧ consumer st' = consumer watchingState).
Proof.
  assert (∀ w, ping w = None → reachesSelect true w) as Hreach
    by (intros w Hw; split; [exact Hw|left; reflexivity]).
  split; [|split].
  - apply (lifecycle_events_enumerate scenarioBuild scenarioPorts Routes keepLast
             true fooStarts watchingState 1%nat (APIEvents.mk "start" fooID)
             eq_refl eq_refl (Hreach fooStarts eq_refl) eq_refl).
    + left. reflexivity.
    + vm_compute. lia.
  - apply (lifecycle_events_enumerate scenarioBuild scenarioPorts Routes keepLast
             true fooRenamed watchingState 1%nat (APIEvents.mk "rename" fooID)
             eq_refl eq_refl (Hreach fooRenamed eq_refl) eq_refl).
    intros [Hs|[Hs|Hs]]; discriminate Hs.
  - apply (proj1 (proj2 (proj2 (proj2
             (lifecycle_events_enumerate scenarioBuild scenarioPorts Routes keepLast
                true fooDiesUnlisted watchingState 1%nat (APIEvents.mk "die" fooID)
                eq_refl eq_refl (Hreach fooDiesUnlisted eq_refl) eq_refl))))
           (or_intror (or_intror eq_refl)))
      with (r := NilRoutes)
           (err := ErrOther "dial unix /var/run/docker.sock: connection refused").
    + vm_compute. lia.
    + reflexivity.
Defined.


Lemma callback_gets_made_tables_holds :
  ActUpdate twoRoutes
    ∈ (run scenarioBuild scenarioPorts keepLast [idle; fooStarts]
         (initial NilRoutes)).1
  ∧ keepLast ≠ None
  ∧ ∃ table w, twoRoutes = MkRoutes table ∧ w ∈ [idle; fooStarts]
      ∧ createRoutes scenarioBuild scenarioPorts (daemon w) (arrivals w)
        = Returned (MkRoutes table, None).
Proof.
  assert (ActUpdate twoRoutes
            ∈ (run scenarioBuild scenarioPorts keepLast [idle; fooStarts]
                 (initial NilRoutes)).1) as Hin.
  { vm_compute. apply list_elem_of_further, list_elem_of_further,
      list_elem_of_further, list_elem_of_here. }
  split; [exact Hin|].
  exact (proj1 (callback_gets_made_tables scenarioBuild scenarioPorts keepLast
                  [idle; fooStarts] NilRoutes) twoRoutes Hin).
Defined.

(** ** Further properties: the candidate ports *)

Lemma splitComma_nonempty cur s : splitComma cur s ≠ [].
Proof.
  revert cur. induction s as [|c rest IH]; intros cur; simpl; [done|].
  by destruct (Ascii.eqb c ","%char).
Qed.

Lemma joinComma_cons piece rest :
  rest ≠ [] → joinComma (piece :: rest) = piece +:+ "," +:+ joinComma rest.
Proof. by destruct rest. Qed.

Lemma append_cons x (a b : string) : String x a +:+ b = String x (a +:+ b).
Proof. reflexivity. Qed.

Lemma append_assoc (a b c : string) : (a +:+ b) +:+ c = a +:+ (b +:+ c).
Proof.
  induction a as [|x a IH]; [done|]. rewrite !append_cons. f_equal. exact IH.
Qed.

Lemma append_empty_r (a : string) : a +:+ "" = a.
Proof. induction a as [|x a IH]; [done|]. rewrite append_cons. f_equal. exact IH. Qed.

Lemma joinComma_splitComma cur s : joinComma (splitComma cur s) = cur +:+ s.
Proof.
  revert cur. induction s as [|c rest IH]; intros cur; simpl.
  - by rewrite append_empty_r.
  - destruct (Ascii.eqb c ","%char) eqn:Hc.
    + apply Ascii.eqb_eq in Hc as ->.
      rewrite joinComma_cons by apply splitComma_nonempty.
      rewrite IH. done.
    + rewrite IH. by rewrite append_assoc.
Qed.

Lemma containsComma_app a b :
  containsComma (a +:+ b) = containsComma a || containsComma b.
Proof.
  induction a as [|x a IH]; [done|].
  rewrite append_cons. simpl. by rewrite IH, orb_assoc.
Qed.

Lemma splitComma_pieces cur s :
  containsComma cur = false →
  Forall (fun piece => containsComma piece = false) (splitComma cur s).
Proof.
  revert cur. induction s as [|c rest IH]; intros cur Hcur; simpl.
  - by constructor.
  - destruct (Ascii.eqb c ","%char) eqn:Hc.
    + constructor; [done|]. by apply IH.
    + apply IH. rewrite containsComma_app, Hcur. simpl. by rewrite Hc.
Qed.

(** X1. [Split] cuts exactly at the commas: it always returns at least
    one piece, no piece contains a comma, and the pieces joined with
    commas give the string back. *)
Theorem Split_joinComma s :
  Split s ≠ []
  ∧ Forall (fun piece => containsComma piece = false) (Split s)
  ∧ joinComma (Split s) = s.
Proof.
  unfold Split. split_and!.
  - apply splitComma_nonempty.
  - by apply splitComma_pieces.
  - apply joinComma_splitComma.
Qed.

Lemma splitComma_app cur piece s :
  containsComma piece = false →
  splitComma cur (piece +:+ s) = splitComma (cur +:+ piece) s.
Proof.
  revert cur. induction piece as [|c piece IH]; intros cur Hpiece.
  - by rewrite append_empty_r.
  - simpl in Hpiece. apply orb_false_iff in Hpiece as [Hc Hpiece].
    rewrite append_cons. simpl. rewrite Hc, IH by done.
    by rewrite append_assoc.
Qed.

(** X2. Conversely, a non-empty list of pieces without commas is what
    [Split] returns for the pieces joined with commas: the candidate
    ports are read in the order written, empty ones included. *)
Theorem Split_of_joinComma pieces :
  pieces ≠ [] →
  Forall (fun piece => containsComma piece = false) pieces →
  Split (joinComma pieces) = pieces.
Proof.
  intros Hne Hpieces. unfold Split.
  induction Hpieces as [|piece rest Hpiece Hrest IH]; [done|].
  destruct rest as [|next rest].
  - simpl. rewrite <- (append_empty_r piece) at 1.
    rewrite splitComma_app by done. done.
  - rewrite joinComma_cons by done.
    rewrite splitComma_app by done.
    change ("," +:+ joinComma (next :: rest))
      with (String ","%char (joinComma (next :: rest))).
    change ("" +:+ piece) with piece. simpl splitComma at 1.
    f_equal. by apply IH.
Qed.

Lemma Split_of_joinComma_holds :
  ["80"; ""; "8080"] ≠ []
  ∧ Forall (fun piece => containsComma piece = false) ["80"; ""; "8080"]
  ∧ Split "80,,8080" = ["80"; ""; "8080"].
Proof.
  assert (["80"; ""; "8080"] ≠ []) as Hne by discriminate.
  assert (Forall (fun piece => containsComma piece = false) ["80"; ""; "8080"])
    as Hpieces by (repeat (apply Forall_cons; split; [reflexivity|]); done).
  split; [exact Hne|]. split; [exact Hpieces|].
  exact (Split_of_joinComma ["80"; ""; "8080"] Hne Hpieces).
Defined.

(** ** Further properties: one container *)

Section ContainerFacts.

Variable build : list string → RouteBuilder.
Variable ports : string.

Lemma useBindings_Container bindings route :
  Container (Upstream (useBindings bindings route)) = Container (Upstream route).
Proof.
  induction bindings as [|b bs IH]; simpl; [done|]. by case_decide.
Qed.

Lemma useNetworks_Container nets route :
  Container (Upstream (useNetworks nets route)) = Container (Upstream route).
Proof.
  induction nets as [|[n net] rest IH]; simpl; [done|]. by case_decide.
Qed.

Lemma resolveAddress_Container nets container route :
  Container (Upstream (resolveAddress nets container route))
  = Container (Upstream route).
Proof.
  unfold resolveAddress, useOtherNetwork, useBridge.
  repeat case_match; simpl;
    rewrite ?useNetworks_Container; simpl; by rewrite ?useBindings_Container.
Qed.

(** X3. A route handed to [routes.Add] carries the name of its container
    and the host key the builder read from the container's environment:
    the resolution of port and address touches neither. *)
Theorem loopBody_names_container container nets route :
  loopBody build ports (container, nets) = Returned (Some route) →
  Container (Upstream route) = Container.Name container
  ∧ host_key route = host_key (build (Container.Env container)).
Proof.
  intros Hbody. split; [|by apply loopBody_admits in Hbody as (_ & ? & _)].
  revert Hbody. unfold loopBody, debugFields, slice_to.
  repeat (case_decide || case_match); simpl; try discriminate.
  all: intros [= <-]; rewrite resolveAddress_Container; reflexivity.
Qed.

(** X4. A port declared by the builder is final for the choice of the
    bindings: the candidate ports are not consulted, so the route is the
    same whatever the [ports] flag holds. *)
Theorem explicit_port_ignores_candidates ports' arrival :
  Port (Upstream (build (Container.Env arrival.1))) ≠ "" →
  loopBody build ports arrival = loopBody build ports' arrival.
Proof.
  destruct arrival as [container nets]. simpl. intros Hport.
  unfold loopBody, resolvePort.
  by destruct (decide (Port (Upstream (build (Container.Env container))) = "")).
Qed.

(** X5. With an empty [ports] flag the only candidate is the empty
    string, which resolves nothing: a container whose builder declares no
    port is never published, whatever it exposes. *)
Theorem empty_ports_flag_routes_nothing arrival route :
  Port (Upstream (build (Container.Env arrival.1))) = "" →
  loopBody build "" arrival ≠ Returned (Some route).
Proof.
  destruct arrival as [container nets]. simpl. intros Hport.
  assert (Port (Upstream (resolvePort "" container (build (Container.Env container))))
          = "") as Hnone.
  { unfold resolvePort. rewrite decide_True by done.
    change (Split "") with [""]. simpl.
    by destruct (_ !! portDef ""). }
  unfold loopBody. rewrite decide_True by done.
  unfold debugFields. by destruct (slice_to _ _).
Qed.

(** X9. A container of a remote node is reached through a published
    binding or not at all: when the builder gives no address and every
    binding of the resolved port is on 0.0.0.0, neither the bridge address
    nor the attached networks are used and the container gets no route. *)
Theorem remote_container_needs_binding container nets route :
  isLocal container = false →
  IP (Upstream (build (Container.Env container))) = "" →
  Forall (fun b => PortBinding.HostIP b = "0.0.0.0")
    (bindingsOf container
       (resolvePort ports container (build (Container.Env container)))) →
  loopBody build ports (container, nets) ≠ Returned (Some route).
Proof.
  intros Hremote Hip Hwild.
  assert (IP (Upstream (resolvePort ports container (build (Container.Env container))))
          = "") as Hip'.
  { unfold resolvePort. repeat case_match; done. }
  unfold loopBody. case_decide; [unfold debugFields; by destruct (slice_to _ _)|].
  assert (IP (Upstream
                (resolveAddress nets container
                   (setContainer
                      (resolvePort ports container (build (Container.Env container)))
                      (Container.Name container)))) = "") as Hnone.
  { unfold resolveAddress, useOtherNetwork, useBridge. rewrite Hremote. simpl.
    rewrite useBindings_wildcard by exact Hwild. exact Hip'. }
  rewrite decide_True by exact Hnone.
  unfold debugFields. by destruct (slice_to _ _).
Qed.

(** X10. The debug lines slice seven bytes off the container's ID before
    they log.  On a shorter ID the loop body never adds a route, and it
    panics where it would have skipped the container for want of a port or
    of an address: a pass that receives such a container does not return. *)
Theorem short_id_panics client containers arrivals container nets :
  (String.length (Container.ID container) < 7)%nat →
  let route := resolvePort ports container (build (Container.Env container)) in
  (∀ r, loopBody build ports (container, nets) ≠ Returned (Some r))
  ∧ (Port (Upstream route) = ""
     ∨ IP (Upstream (resolveAddress nets container
                       (setContainer route (Container.Name container)))) = "" →
     loopBody build ports (container, nets) = Panicked
     ∧ (Client.ListContainers client = inl containers →
        (container, nets) ∈ arrivals →
        createRoutes build ports client arrivals = Panicked)).
Proof.
  intros Hshort route.
  assert (debugFields container = Panicked) as Hdebug.
  { unfold debugFields, slice_to. by rewrite decide_False by lia. }
  split.
  - intros r. unfold loopBody. fold route. rewrite Hdebug.
    repeat (case_decide || case_match); simpl; discriminate.
  - intros Hnone.
    assert (loopBody build ports (container, nets) = Panicked) as Hpanic.
    { unfold loopBody. fold route. rewrite Hdebug.
      case_decide as Hport; [done|]. destruct Hnone as [?|Hip]; [done|].
      by rewrite decide_True by exact Hip. }
    split; [exact Hpanic|].
    intros Hlist Hin. unfold createRoutes. rewrite Hlist.
    assert (∀ table, receiveAll build ports arrivals table = Panicked) as Hall.
    { clear Hlist. induction arrivals as [|a rest IH]; intros table.
      - by apply elem_of_nil in Hin.
      - simpl. apply elem_of_cons in Hin as [<-|Hin].
        + by rewrite Hpanic.
        + destruct (loopBody build ports a); simpl; [by apply IH|done]. }
    by rewrite Hall.
Qed.

(** X11. When the daemon lists no container, the pass returns the empty
    table, made and not nil, with a nil error. *)
Theorem empty_listing_makes_empty_table client arrivals :
  Client.ListContainers client = inl [] →
  scheduled client arrivals →
  createRoutes build ports client arrivals = Returned (MkRoutes ∅, None).
Proof.
  intros Hlist Hsched. unfold scheduled in Hsched. rewrite Hlist in Hsched.
  destruct Hsched as [Hperm _]. simpl in Hperm.
  apply Permutation_nil_r in Hperm. apply fmap_nil_inv in Hperm as ->.
  unfold createRoutes. by rewrite Hlist.
Qed.

End ContainerFacts.

(** ** Further properties: the loop *)

Section LoopInvariants.

Variable build : list string → RouteBuilder.
Variable ports : string.
Variable Consumer : Type.
Variable updateFunc : option (Routes → Consumer → Consumer).

(** A property of the states kept by every iteration is kept by the loop. *)
Lemma run_invariant (P : State Consumer → Prop) :
  (∀ w st acts st', P st → step build ports updateFunc w st = (acts, Returned st') →
                    P st') →
  ∀ ws st acts st',
    P st → run build ports updateFunc ws st = (acts, Returned st') → P st'.
Proof.
  intros Hstep ws. induction ws as [|w rest IH]; intros st acts st' Hst; simpl.
  - by intros [= _ <-].
  - destruct (step build ports updateFunc w st) as [acts1 [st1|]] eqn:Hw;
      simpl; [|done].
    destruct (run build ports updateFunc rest st1) as [acts2 o2] eqn:Hrest.
    intros [= _ ->]. eapply IH; [|exact Hrest]. by eapply Hstep.
Qed.

Lemma step_watching_connected w (st : State Consumer) acts st' :
  (loc st = Inner true → is_Some (client st)) →
  step build ports updateFunc w st = (acts, Returned st') →
  loc st' = Inner true → is_Some (client st').
Proof.
  intros Hst. loop_cases; intros [= _ <-]; simpl; try done; try (by eexists).
  all: try (rewrite <- ?Heqo; apply Hst; by rewrite ?Heql).
Qed.

(** X12. At every place the loop reaches from its start, watching implies
    connected: when [watching] is true the client handle is not nil. *)
Theorem watching_implies_connected ws (c0 : Consumer) acts st :
  run build ports updateFunc ws (initial c0) = (acts, Returned st) →
  loc st = Inner true →
  is_Some (client st).
Proof.
  intros Hrun.
  apply (run_invariant (fun st => loc st = Inner true → is_Some (client st))
           step_watching_connected ws (initial c0) acts st); [|exact Hrun].
  discriminate.
Qed.





(** X14. While no client can be created the loop only retries: each
    iteration is one attempt, one error line and one wait of
    [ReconnectTime]; nothing is enumerated or published and the state
    stays the initial one. *)
Theorem connect_failures_only_retry ws (c0 : Consumer) :
  Forall (fun w => ∃ e, newClient w = inr e) ws →
  run build ports updateFunc ws (initial c0)
  = (mjoin (replicate (length ws) failedAttempt), Returned (initial c0)).
Proof.
  induction 1 as [|w rest [e Hw] _ IH]; [done|].
  simpl. unfold step, outerStep at 1. simpl. rewrite Hw. simpl.
  unfold goto, setClient, initial in *. simpl. by rewrite IH.
Qed.

(** X15. A subscription refused with [ErrListenerAlreadyExists] counts as
    made: the iteration goes on exactly as if [AddEventListener] had
    returned nil.  Any other error is logged and followed by the wait of
    [ReconnectTime], and the loop stays in the inner loop with its client,
    not watching, without reaching the select. *)
Theorem subscription_errors w (st : State Consumer) c :
  loc st = Inner false →
  client st = Some c →
  ping w = None →
  step build ports updateFunc (withListener (Some ErrListenerAlreadyExists) w) st
  = step build ports updateFunc (withListener None w) st
  ∧ ∀ msg,
      step build ports updateFunc (withListener (Some (ErrOther msg)) w) st
      = ([ActPing; ActAddEventListener;
          ActLog ErrorLevel "Error registering docker event listener:";
          ActSleep ReconnectTime],
         Returned st).
Proof.
  intros Hloc Hclient Hping. unfold step. rewrite Hloc. unfold innerStep.
  rewrite Hclient. simpl. rewrite Hping. split; [reflexivity|].
  intros msg. simpl. destruct st as [c' r k l]. simpl in *. by subst.
Qed.

(** X16. An enumeration that fails right after the connection does not
    undo the connection: nothing is published, the consumer keeps what it
    had, and the loop enters the inner loop with the new client, where the
    next successful ping leads to the subscription. *)
Theorem failed_first_enumeration_keeps_client w1 w2 (st : State Consumer) c err :
  loc st = Outer →
  client st = None →
  newClient w1 = inl c →
  Client.ListContainers (daemon w1) = inr err →
  ping w2 = None →
  addEventListener w2 = None →
  selected w2 = TimedOut →
  run build ports updateFunc [w1; w2] st
  = ([ActNewClient; ActLog DebugLevel "Connected to docker daemon...";
      ActCreateRoutes; ActLog ErrorLevel "Error enumerating routes:";
      ActPing; ActAddEventListener; ActLog InfoLevel "Watching docker events...";
      ActTimeout PingInterval],
     Returned (mkState (Some c) NilRoutes (consumer st) (Inner true))).
Proof.
  intros Hloc Hclient Hnew Hlist Hping Hadd Hsel.
  assert (step build ports updateFunc w1 st
          = ([ActNewClient; ActLog DebugLevel "Connected to docker daemon...";
              ActCreateRoutes; ActLog ErrorLevel "Error enumerating routes:"],
             Returned (mkState (Some c) NilRoutes (consumer st) (Inner false))))
    as H1.
  { unfold step. rewrite Hloc. unfold outerStep. rewrite Hclient. simpl.
    rewrite Hnew. simpl. unfold enumerate.
    by rewrite (createRoutes_listing_fails build ports _ _ _ Hlist). }
  assert (step build ports updateFunc w2
            (mkState (Some c) NilRoutes (consumer st) (Inner false))
          = ([ActPing; ActAddEventListener;
              ActLog InfoLevel "Watching docker events...";
              ActTimeout PingInterval],
             Returned (mkState (Some c) NilRoutes (consumer st) (Inner true))))
    as H2.
  { unfold step, innerStep, selectStep. simpl. by rewrite Hping, Hadd, Hsel. }
  unfold run, bind. rewrite H1. cbv beta iota. by rewrite H2.
Qed.

End LoopInvariants.

Section AllOrNothing.

Variable build : list string → RouteBuilder.
Variable ports : string.


End AllOrNothing.

(** ** The further properties on concrete runs *)

Lemma loopBody_names_container_holds :
  loopBody scenarioBuild scenarioPorts (fooBridge, []) = Returned (Some fooRoute)
  ∧ Container (Upstream fooRoute) = Container.Name fooBridge
  ∧ host_key fooRoute = host_key (scenarioBuild (Container.Env fooBridge)).
Proof.
  assert (loopBody scenarioBuild scenarioPorts (fooBridge, [])
          = Returned (Some fooRoute)) as Hbody by reflexivity.
  split; [exact Hbody|].
  exact (loopBody_names_container scenarioBuild scenarioPorts fooBridge [] fooRoute
           Hbody).
Defined.

Lemma explicit_port_ignores_candidates_holds :
  Port (Upstream (portBuild (Container.Env fooBridge))) ≠ ""
  ∧ loopBody portBuild scenarioPorts (fooBridge, [])
    = loopBody portBuild "" (fooBridge, []).
Proof.
  assert (Port (Upstream (portBuild (Container.Env fooBridge))) ≠ "") as Hport
    by discriminate.
  split; [exact Hport|].
  exact (explicit_port_ignores_candidates portBuild scenarioPorts "" (fooBridge, [])
           Hport).
Defined.

Lemma empty_ports_flag_routes_nothing_holds :
  Port (Upstream (scenarioBuild (Container.Env fooBridge))) = ""
  ∧ loopBody scenarioBuild "" (fooBridge, []) ≠ Returned (Some fooRoute).
Proof.
  split; [reflexivity|].
  exact (empty_ports_flag_routes_nothing scenarioBuild (fooBridge, []) fooRoute
           eq_refl).
Defined.

Lemma resolveAddress_binding_holds :
  Upstream (resolveAddress [] fooBound
              (mkRoute "foo.example.com" (mkEndpoint "" "8080" "/foo")))
  = mkEndpoint "10.0.0.5" "32768" "/foo".
Proof.
  apply (resolveAddress_binding [] fooBound
           (mkRoute "foo.example.com" (mkEndpoint "" "8080" "/foo"))
           0%nat (PortBinding.mk "10.0.0.5" "32768")).
  - reflexivity.
  - discriminate.
  - discriminate.
  - intros j b Hj. lia.
Defined.

Lemma resolveAddress_bridge_holds :
  Upstream (resolveAddress [] fooWildcard
              (mkRoute "foo.example.com" (mkEndpoint "" "8080" "/foo")))
  = mkEndpoint "172.17.0.2" "8080" "/foo".
Proof.
  apply (resolveAddress_bridge [] fooWildcard
           (mkRoute "foo.example.com" (mkEndpoint "" "8080" "/foo"))).
  - change (Forall (fun b => PortBinding.HostIP b = "0.0.0.0")
              [PortBinding.mk "0.0.0.0" "32768"]).
    apply Forall_cons. split; [reflexivity|done].
  - reflexivity.
  - reflexivity.
  - discriminate.
Defined.

Lemma resolveAddress_network_holds :
  Upstream (resolveAddress [("back", backNet); ("front", frontNet)] fooTwoNets
              (mkRoute "foo.example.com" (mkEndpoint "" "8080" "/foo")))
  = mkEndpoint "10.2.0.2" "8080" "/foo".
Proof.
  apply (resolveAddress_network [("back", backNet); ("front", frontNet)] fooTwoNets
           (mkRoute "foo.example.com" (mkEndpoint "" "8080" "/foo"))
           0%nat "back" backNet).
  - change (Forall (fun b => PortBinding.HostIP b = "0.0.0.0") []). done.
  - reflexivity.
  - reflexivity.
  - reflexivity.
  - reflexivity.
  - discriminate.
  - intros j n Hj. lia.
Defined.

Lemma remote_container_needs_binding_holds :
  isLocal fooRemote = false
  ∧ loopBody scenarioBuild scenarioPorts (fooRemote, []) ≠ Returned (Some fooRoute).
Proof.
  split; [reflexivity|].
  apply (remote_container_needs_binding scenarioBuild scenarioPorts fooRemote []
           fooRoute eq_refl eq_refl).
  change (Forall (fun b => PortBinding.HostIP b = "0.0.0.0")
            [PortBinding.mk "0.0.0.0" "32768"]).
  apply Forall_cons. split; [reflexivity|done].
Defined.

Lemma short_id_panics_holds :
  (String.length (Container.ID fooShort) < 7)%nat
  ∧ loopBody scenarioBuild scenarioPorts (fooShort, []) = Panicked
  ∧ createRoutes scenarioBuild scenarioPorts (daemonOf [fooShort]) [(fooShort, [])]
    = Panicked.
Proof.
  assert (String.length (Container.ID fooShort) < 7)%nat as Hshort
    by (vm_compute; lia).
  pose proof (proj2 (short_id_panics scenarioBuild scenarioPorts
                       (daemonOf [fooShort]) [APIContainers.mk "4f2a9c"]
                       [(fooShort, [])] fooShort [] Hshort)
                (or_introl eq_refl)) as [Hbody Hpass].
  split; [exact Hshort|]. split; [exact Hbody|].
  apply Hpass; [reflexivity|apply list_elem_of_here].
Defined.

Lemma empty_listing_makes_empty_table_holds :
  Client.ListContainers daemonEmpty = inl []
  ∧ scheduled daemonEmpty []
  ∧ createRoutes scenarioBuild scenarioPorts daemonEmpty []
    = Returned (MkRoutes ∅, None).
Proof.
  assert (scheduled daemonEmpty []) as Hsched.
  { apply (scheduled_intro _ []); [reflexivity|reflexivity|done]. }
  split; [reflexivity|]. split; [exact Hsched|].
  exact (empty_listing_makes_empty_table scenarioBuild scenarioPorts daemonEmpty []
           eq_refl Hsched).
Defined.

Lemma watching_implies_connected_holds :
  run scenarioBuild scenarioPorts keepLast [idle; idle] (initial NilRoutes)
  = ([ActNewClient; ActLog DebugLevel "Connected to docker daemon...";
      ActCreateRoutes; ActUpdate twoRoutes;
      ActPing; ActAddEventListener; ActLog InfoLevel "Watching docker events...";
      ActTimeout PingInterval],
     Returned watchingState)
  ∧ loc watchingState = Inner true
  ∧ is_Some (client watchingState).
Proof.
  assert (run scenarioBuild scenarioPorts keepLast [idle; idle] (initial NilRoutes)
          = ([ActNewClient; ActLog DebugLevel "Connected to docker daemon...";
              ActCreateRoutes; ActUpdate twoRoutes;
              ActPing; ActAddEventListener;
              ActLog InfoLevel "Watching docker events...";
              ActTimeout PingInterval],
             Returned watchingState)) as Hrun by (vm_compute; reflexivity).
  split; [exact Hrun|]. split; [reflexivity|].
  exact (watching_implies_connected scenarioBuild scenarioPorts Routes keepLast
           [idle; idle] NilRoutes _ _ Hrun eq_refl).
Defined.

Lemma connect_failures_only_retry_holds :
  Forall (fun w => ∃ e, newClient w = inr e) [noDaemon; noDaemon]
  ∧ run scenarioBuild scenarioPorts keepLast [noDaemon; noDaemon] (initial NilRoutes)
    = (failedAttempt ++ failedAttempt, Returned (initial NilRoutes))%list.
Proof.
  assert (Forall (fun w => ∃ e, newClient w = inr e) [noDaemon; noDaemon]) as Hdown.
  { apply Forall_cons. split; [by eexists|].
    apply Forall_cons. split; [by eexists|done]. }
  split; [exact Hdown|].
  exact (connect_failures_only_retry scenarioBuild scenarioPorts Routes keepLast
           [noDaemon; noDaemon] NilRoutes Hdown).
Defined.

Lemma subscription_errors_holds :
  loc connectedState = Inner false
  ∧ ping idle = None
  ∧ step scenarioBuild scenarioPorts keepLast
      (withListener (Some ErrListenerAlreadyExists) idle) connectedState
    = step scenarioBuild scenarioPorts keepLast (withListener None idle) connectedState
  ∧ ∀ msg,
      step scenarioBuild scenarioPorts keepLast
        (withListener (Some (ErrOther msg)) idle) connectedState
      = ([ActPing; ActAddEventListener;
          ActLog ErrorLevel "Error registering docker event listener:";
          ActSleep ReconnectTime],
         Returned connectedState).
Proof.
  split; [reflexivity|]. split; [reflexivity|].
  exact (subscription_errors scenarioBuild scenarioPorts Routes keepLast idle
           connectedState 1%nat eq_refl eq_refl eq_refl).
Defined.

Lemma failed_first_enumeration_keeps_client_holds :
  newClient connectsUnlisted = inl 1%nat
  ∧ Client.ListContainers (daemon connectsUnlisted)
    = inr (ErrOther "dial unix /var/run/docker.sock: connection refused")
  ∧ run scenarioBuild scenarioPorts keepLast [connectsUnlisted; idle]
      (mkState None NilRoutes twoRoutes Outer)
    = ([ActNewClient; ActLog DebugLevel "Connected to docker daemon...";
        ActCreateRoutes; ActLog ErrorLevel "Error enumerating routes:";
        ActPing; ActAddEventListener; ActLog InfoLevel "Watching docker events...";
        ActTimeout PingInterval],
       Returned (mkState (Some 1%nat) NilRoutes twoRoutes (Inner true))).
Proof.
  split; [reflexivity|]. split; [reflexivity|].
  exact (failed_first_enumeration_keeps_client scenarioBuild scenarioPorts Routes
           keepLast connectsUnlisted idle (mkState None NilRoutes twoRoutes Outer)
           1%nat (ErrOther "dial unix /var/run/docker.sock: connection refused")
           eq_refl eq_refl eq_refl eq_refl eq_refl eq_refl eq_refl).
Defined.

